(** * ServicePi IoT API service ([configs/iot/app.py])

    A shallow embedding of the Flask application: the two module-level
    stores ([sensor_data], [device_status]), the Python operations the view
    functions apply to the value [request.get_json()] hands them, the view
    functions themselves, and the properties of the request/response
    contract. *)

From Stdlib Require Import ZArith String Ascii.
From Stdlib Require Import Floats.SpecFloat.
From stdpp Require Import gmap strings list fin_maps.

Set Warnings "-register-all".

(** ** Python values that come out of a JSON document

    [json.loads] yields [None], [bool], [int], [float], [str], [list] and
    [dict] with [str] keys.  The order of the keys of a [dict] is not
    observed by the service, so a [dict] is a finite map. *)

Inductive json : Type :=
  | JNull
  | JBool (b : bool)
  | JInt (z : Z)
  | JFloat (f : spec_float)
  | JStr (s : string)
  | JArr (l : list json)
  | JObj (o : gmap string json).

Abbreviation dict := (gmap string json).

(** A dictionary display [{k1: v1, ..., kn: vn}] with distinct keys. *)
Definition obj (kvs : list (string * json)) : json := JObj (list_to_map kvs).

(** ** Exceptions and results *)

Inductive exn : Type :=
  | TypeError
  | ValueError
  | KeyError
  | AttributeError
  | HTTPException (code : Z).

(** [Unmodelled] marks the arguments of [dict.update] whose effect on a
    record is beyond this embedding (see [update_item]); the statements
    about all requests are about the requests that do not end there. *)
Inductive result (A : Type) : Type :=
  | Return (a : A)
  | Raise (e : exn)
  | Unmodelled.

Arguments Return {A} a.
Arguments Raise {A} e.
Arguments Unmodelled {A}.

(** ** Builtin operations, on the values a request body can be *)

Module Py.

(** [bool(v)], as used by [if not data]. *)
Definition truthy (v : json) : bool :=
  match v with
  | JNull => false
  | JBool b => b
  | JInt z => negb (z =? 0)%Z
  | JFloat (S754_zero _) => false
  | JFloat _ => true
  | JStr s => negb (String.eqb s "")
  | JArr l => negb (bool_decide (l = []))
  | JObj o => negb (bool_decide (o = ∅))
  end.

(** [v == s] for a [str] [s]: only a [str] equals a [str]. *)
Definition eq_str (s : string) (v : json) : bool :=
  match v with
  | JStr s' => String.eqb s s'
  | _ => false
  end.

(** [k in s] on [str] is the substring test. *)
Definition substring_of (k s : string) : bool :=
  match String.index 0 k s with
  | Some _ => true
  | None => false
  end.

(** [k in v], for a [str] [k]. *)
Definition contains (k : string) (v : json) : result bool :=
  match v with
  | JObj o => Return (bool_decide (is_Some (o !! k)))
  | JArr l => Return (existsb (eq_str k) l)
  | JStr s => Return (substring_of k s)
  | JNull | JBool _ | JInt _ | JFloat _ => Raise TypeError
  end.

(** [v[k] = x], for a [str] [k]: only a [dict] accepts it. *)
Definition setitem (k : string) (x : json) (v : json) : result json :=
  match v with
  | JObj o => Return (JObj (<[k := x]> o))
  | _ => Raise TypeError
  end.

(** [v[k]], for a [str] [k]. *)
Definition getitem (k : string) (v : json) : result json :=
  match v with
  | JObj o =>
      match o !! k with
      | Some x => Return x
      | None => Raise KeyError
      end
  | _ => Raise TypeError
  end.

(** [v.get(k)]: the default is [None]. *)
Definition get (k : string) (v : json) : result json :=
  match v with
  | JObj o => Return (default JNull (o !! k))
  | _ => Raise AttributeError
  end.

(** [v in d] for a dictionary [d] with [str] keys: [v] is hashed first
    ([list] and [dict] are unhashable); a hashable value that is not a
    [str] equals none of the keys. *)
Definition key_in {A} (v : json) (d : gmap string A) : result (option string) :=
  match v with
  | JArr _ | JObj _ => Raise TypeError
  | JStr s => Return (if bool_decide (is_Some (d !! s)) then Some s else None)
  | JNull | JBool _ | JInt _ | JFloat _ => Return None
  end.

(** One element of the sequence given to [dict.update]: it must be a
    sequence of length two, a key and a value.  A pair with a [str] key
    is stored and a pair with an unhashable key raises; an element that
    is no sequence or a [list] of another length raises.  The other
    elements (a pair whose key is a number, a boolean or [None]; a [str];
    a [dict], whose two keys would be read in order) are stored by
    [dict.update] too, but would need dictionaries beyond [dict]: they are
    left [Unmodelled], with the record as it was before them. *)
Definition update_item (d : dict) (item : json) : dict * result unit :=
  match item with
  | JArr [JStr k; x] => (<[k := x]> d, Return tt)
  | JArr [JArr _; _] | JArr [JObj _; _] => (d, Raise TypeError)
  | JArr [_; _] => (d, Unmodelled)
  | JArr _ => (d, Raise ValueError)
  | JStr _ | JObj _ => (d, Unmodelled)
  | JNull | JBool _ | JInt _ | JFloat _ => (d, Raise TypeError)
  end.

(** The items are stored one after the other: those before a failing
    element stay stored. *)
Fixpoint update_seq (d : dict) (items : list json) : dict * result unit :=
  match items with
  | [] => (d, Return tt)
  | item :: items' =>
      match update_item d item with
      | (d', Return _) => update_seq d' items'
      | r => r
      end
  end.

(** [d.update(v)], in place: a [dict] argument overwrites key by key; a
    non-empty [str] is a sequence whose first element has length one; a
    number or [True] is not iterable. *)
Definition update (d : dict) (v : json) : dict * result unit :=
  match v with
  | JObj o => (o ∪ d, Return tt)
  | JArr l => update_seq d l
  | JStr s => (d, if String.eqb s "" then Return tt else Raise ValueError)
  | JNull | JBool _ | JInt _ | JFloat _ => (d, Raise TypeError)
  end.

(** [l[-n:]] for [0 < n]. *)
Definition last_n {A} (n : nat) (l : list A) : list A :=
  drop (length l - n) l.

(** [len(l)] *)
Definition len {A} (l : list A) : json := JInt (Z.of_nat (length l)).

(** [s.lower()] on the ASCII letters. *)
Definition lower_ascii (c : ascii) : ascii :=
  let n := nat_of_ascii c in
  if (65 <=? n)%nat && (n <=? 90)%nat then ascii_of_nat (n + 32) else c.

Fixpoint lower (s : string) : string :=
  match s with
  | EmptyString => EmptyString
  | String c s' => String (lower_ascii c) (lower s')
  end.

End Py.

(** ** The module-level stores *)

Record state : Type := State {
  sensor_data : list json;
  device_status : gmap string dict
}.

(** The stores as the module creates them. *)
Definition initial : state :=
  {| sensor_data := [];
     device_status :=
       list_to_map
         [("temperature_sensor",
            list_to_map [("status", JStr "online");
                         ("last_reading", JFloat (S754_finite false 6333186975989760 (-48)));
                         ("unit", JStr "Â°C")]);
          ("humidity_sensor",
            list_to_map [("status", JStr "online");
                         ("last_reading", JFloat (S754_finite false 4588042120383693 (-46)));
                         ("unit", JStr "%")]);
          ("motion_sensor",
            list_to_map [("status", JStr "online");
                         ("last_reading", JBool false);
                         ("unit", JStr "boolean")])] |}.

(** ** View functions run in a state-and-exception monad

    A store written before an exception is raised stays written. *)

Definition M (A : Type) : Type := state -> result A * state.

Definition ret {A} (a : A) : M A := fun st => (Return a, st).

Definition bind {A B} (m : M A) (k : A -> M B) : M B :=
  fun st =>
    match m st with
    | (Return a, st') => k a st'
    | (Raise e, st') => (Raise e, st')
    | (Unmodelled, st') => (Unmodelled, st')
    end.

Definition lift {A} (r : result A) : M A := fun st => (r, st).

Definition gets {A} (f : state -> A) : M A := fun st => (Return (f st), st).

Definition modify (f : state -> state) : M unit := fun st => (Return tt, f st).

Notation "'do' x <- m ; k" := (bind m (fun x => k))
  (at level 10, x name, m at level 100, k at level 200).
Notation "m ;; k" := (bind m (fun _ => k))
  (at level 100, k at level 200, right associativity).

Definition append_reading (data : json) (st : state) : state :=
  {| sensor_data := sensor_data st ++ [data]; device_status := device_status st |}.

Definition set_device (device_id : string) (d : dict) (st : state) : state :=
  {| sensor_data := sensor_data st;
     device_status := <[device_id := d]> (device_status st) |}.

(** [device_status[device_id]] *)
Definition device (device_id : string) : M dict :=
  fun st =>
    match device_status st !! device_id with
    | Some d => (Return d, st)
    | None => (Raise KeyError, st)
    end.

(** ** What a request brings, and the configuration *)

Record config : Type := Config {
  SERVICE_NAME : string;
  API_PORT : Z;
  SSL_ENABLED : option string          (* [os.environ] at 'SSL_ENABLED' *)
}.

(** The outbound call [requests.get(..., timeout=5)]: the text of the
    exception it raises, or the status code of the answer and the seconds
    elapsed. *)
Inductive peer : Type :=
  | PeerRaises (text : string)
  | PeerAnswers (status_code : Z) (total_seconds : spec_float).

Record request : Type := Request {
  method : string;
  get_json : result json;     (* what [request.get_json()] does; [None] is [JNull] *)
  utcnow : string;            (* [datetime.utcnow().isoformat()] *)
  requests_get : peer
}.

(** What a view function returns: [jsonify(body), status], or nothing. *)
Inductive reply : Type :=
  | Jsonify (body : json) (status : Z)
  | PyNone.

(** ** The view functions *)

Section Views.

Variable cfg : config.
Variable req : request.

Definition timestamp : string * json := ("timestamp", JStr (utcnow req)).

(** [@app.route('/', methods=['GET'])] *)
Definition root : M reply :=
  ret (Jsonify
         (obj [("service", JStr (SERVICE_NAME cfg));
               ("version", JStr "1.0.0");
               timestamp;
               ("endpoints",
                 JArr [JStr "/health"; JStr "/api/sensors"; JStr "/api/sensors/data";
                       JStr "/api/devices"; JStr "/api/system/info"])])
         200).

(** [@app.route('/health', methods=['GET'])] *)
Definition health_check : M reply :=
  ret (Jsonify
         (obj [("status", JStr "healthy");
               ("service", JStr (SERVICE_NAME cfg));
               timestamp])
         200).

(** [device_status] as [jsonify] sees it *)
Definition devices_json (ds : gmap string dict) : json := JObj (JObj <$> ds).

(** [@app.route('/api/sensors', methods=['GET'])] *)
Definition get_sensors : M reply :=
  do ds <- gets device_status;
  ret (Jsonify (obj [("sensors", devices_json ds); timestamp]) 200).

(** [sum(1 for d in device_status.values() if d['status'] == 'online')] *)
Definition online_devices (ds : gmap string dict) : result Z :=
  foldr
    (fun d acc =>
       match acc, d !! "status" with
       | Return n, Some s => Return (if Py.eq_str "online" s then n + 1 else n)%Z
       | Return _, None => Raise KeyError
       | r, _ => r
       end)
    (Return 0%Z) (map_to_list ds).*2.

(** [@app.route('/api/sensors/data', methods=['GET', 'POST'])] *)
Definition sensor_data_endpoint : M reply :=
  if String.eqb (method req) "GET" then
    do readings <- gets sensor_data;
    ret (Jsonify
           (obj [("data", JArr (Py.last_n 100 readings));
                 ("count", Py.len readings);
                 timestamp])
           200)
  else if String.eqb (method req) "POST" then
    do data <- lift (get_json req);
    if negb (Py.truthy data) then
      ret (Jsonify (obj [("error", JStr "No data provided")]) 400)
    else
      do stamped <- lift (Py.contains "timestamp" data);
      do data <- lift (if negb stamped
                       then Py.setitem "timestamp" (JStr (utcnow req)) data
                       else Return data);
      modify (append_reading data);;
      do typed <- lift (Py.contains "sensor_type" data);
      do known <- (if typed
                   then do sensor_type <- lift (Py.getitem "sensor_type" data);
                        do ds <- gets device_status;
                        lift (Py.key_in sensor_type ds)
                   else ret None);
      match known with
      | Some device_id =>
          do value <- lift (Py.get "value" data);
          do d <- device device_id;
          modify (set_device device_id (<["last_reading" := value]> d));;
          do d <- device device_id;
          modify (set_device device_id (<["status" := JStr "online"]> d))
      | None => ret tt
      end;;
      ret (Jsonify (obj [("success", JBool true); ("data", data)]) 201)
  else ret PyNone.

(** [@app.route('/api/devices', methods=['GET'])] *)
Definition get_devices : M reply :=
  do ds <- gets device_status;
  do online <- lift (online_devices ds);
  ret (Jsonify
         (obj [("devices", devices_json ds);
               ("total_devices", JInt (Z.of_nat (size ds)));
               ("online_devices", JInt online);
               timestamp])
         200).

(** [@app.route('/api/devices/<device_id>', methods=['GET', 'PUT'])] *)
Definition device_endpoint (device_id : string) : M reply :=
  do ds <- gets device_status;
  if negb (bool_decide (is_Some (ds !! device_id))) then
    ret (Jsonify (obj [("error", JStr "Device not found")]) 404)
  else if String.eqb (method req) "GET" then
    do d <- device device_id;
    ret (Jsonify (obj [("device_id", JStr device_id); ("device", JObj d); timestamp]) 200)
  else if String.eqb (method req) "PUT" then
    do data <- lift (get_json req);
    if negb (Py.truthy data) then
      ret (Jsonify (obj [("error", JStr "No data provided")]) 400)
    else
      do d <- device device_id;
      modify (set_device device_id (Py.update d data).1);;
      lift (Py.update d data).2;;
      do d <- device device_id;
      ret (Jsonify (obj [("success", JBool true); ("device_id", JStr device_id);
                         ("device", JObj d)])
             200)
  else ret PyNone.

(** [@app.route('/api/system/info', methods=['GET'])] *)
Definition system_info : M reply :=
  do readings <- gets sensor_data;
  do ds <- gets device_status;
  do online <- lift (online_devices ds);
  ret (Jsonify
         (obj [("system",
                 obj [("service", JStr (SERVICE_NAME cfg));
                      ("uptime", JStr "Running");
                      ("version", JStr "1.0.0");
                      ("api_port", JInt (API_PORT cfg));
                      ("ssl_enabled",
                        JBool (String.eqb
                                 (Py.lower (default "false" (SSL_ENABLED cfg))) "true"))]);
               ("statistics",
                 obj [("total_sensor_readings", Py.len readings);
                      ("total_devices", JInt (Z.of_nat (size ds)));
                      ("online_devices", JInt online)]);
               timestamp])
         200).

(** [@app.route('/api/system/communicate', methods=['POST'])]: the [try]
    block and its [except Exception as e] handler. *)
Definition communicate_with_services : M reply :=
  match requests_get req with
  | PeerAnswers status_code total_seconds =>
      ret (Jsonify
             (obj [("service_communication",
                     obj [("web_backend",
                            obj [("status",
                                   JStr (if (status_code =? 200)%Z
                                         then "healthy" else "unhealthy"));
                                 ("response_time", JFloat total_seconds)]);
                          ("portainer", obj [("status", JStr "accessible")])]);
                   timestamp])
             200)
  | PeerRaises text =>
      ret (Jsonify
             (obj [("error", JStr "Communication failed");
                   ("details", JStr text);
                   timestamp])
             500)
  end.

End Views.

(** ** Routing *)

(** The URL rules of the application. *)
Inductive rule : Type :=
  | url_root
  | url_health
  | url_api_sensors
  | url_api_sensors_data
  | url_api_devices
  | url_api_device (device_id : string)
  | url_api_system_info
  | url_api_system_communicate.

(** The [methods=[...]] of each rule. *)
Definition methods (u : rule) : list string :=
  match u with
  | url_api_sensors_data => ["GET"; "POST"]
  | url_api_device _ => ["GET"; "PUT"]
  | url_api_system_communicate => ["POST"]
  | _ => ["GET"]
  end.

Definition view (cfg : config) (u : rule) (req : request) : M reply :=
  match u with
  | url_root => root cfg req
  | url_health => health_check cfg req
  | url_api_sensors => get_sensors req
  | url_api_sensors_data => sensor_data_endpoint req
  | url_api_devices => get_devices req
  | url_api_device device_id => device_endpoint req device_id
  | url_api_system_info => system_info cfg req
  | url_api_system_communicate => communicate_with_services req
  end.

(** Flask calls the view function for the methods of the rule, and for
    [HEAD] where the rule has [GET]; any other method it answers itself,
    and the view function is not called ([None]). *)
Definition calls_view (u : rule) (m : string) : bool :=
  existsb (String.eqb m) (methods u)
  || (String.eqb m "HEAD" && existsb (String.eqb "GET") (methods u)).

Definition handle (cfg : config) (u : rule) (req : request) : M (option reply) :=
  if calls_view u (method req)
  then do r <- view cfg u req; ret (Some r)
  else ret None.

(** A sequence of requests, served one after the other. *)
Fixpoint serve (cfg : config) (rs : list (rule * request)) (st : state)
  : list (result (option reply)) * state :=
  match rs with
  | [] => ([], st)
  | (u, req) :: rs' =>
      let (r, st') := handle cfg u req st in
      let (out, st'') := serve cfg rs' st' in
      (r :: out, st'')
  end.


(** ** Sample requests *)

Definition sample_cfg : config :=
  {| SERVICE_NAME := "ServicePi IoT"; API_PORT := 8080; SSL_ENABLED := None |}.

Definition sample_now : string := "2024-01-15T10:30:00.000000".

Definition GET : request :=
  {| method := "GET"; get_json := Return JNull; utcnow := sample_now;
     requests_get := PeerAnswers 200 (S754_zero false) |}.

Definition POST (data : json) : request :=
  {| method := "POST"; get_json := Return data; utcnow := sample_now;
     requests_get := PeerRaises "Connection refused" |}.

Definition PUT (data : json) : request :=
  {| method := "PUT"; get_json := Return data; utcnow := sample_now;
     requests_get := PeerAnswers 200 (S754_zero false) |}.

(** 30.1 *)
Definition sample_value : json := JFloat (S754_finite false 8472396798990746 (-48)).

Definition sample_posts : list request :=
  [POST (obj [("sensor_type", JStr "temperature_sensor"); ("value", JInt 30)]);
   POST (obj [("sensor_type", JStr "door_sensor"); ("timestamp", JStr "noon")])].

(** The store after the JSON string ["timestamp"] was posted. *)
Definition sample_store : state :=
  (handle sample_cfg url_api_sensors_data (POST (JStr "timestamp")) initial).2.

(** A POST whose body is not valid JSON: [request.get_json()] does not
    return, it raises [BadRequest]. *)
Definition POST_malformed : request :=
  {| method := "POST"; get_json := Raise (HTTPException 400); utcnow := sample_now;
     requests_get := PeerRaises "Connection refused" |}.

(** A request that is no PUT of an array to a device. *)
Definition no_array_put (r : rule * request) : Prop :=
  ∀ device_id l,
    r.1 = url_api_device device_id → method r.2 = "PUT" →
    get_json r.2 ≠ Return (JArr l).

(** ** What a POST stores *)

(** The body of a POST with its time stamp: the client's when there is
    one, the server's otherwise. *)
Definition stamp (now : string) (o : dict) : dict :=
  if bool_decide (is_Some (o !! "timestamp")) then o else <["timestamp" := JStr now]> o.

(** What a POST appends to [sensor_data] when it gets that far. *)
Definition reading_of (req : request) : json :=
  match get_json req with
  | Return (JObj o) => JObj (stamp (utcnow req) o)
  | Return data => data
  | _ => JNull
  end.

(** The reply [jsonify({'success': True, 'data': data}), 201]. *)
Definition created (r : result (option reply)) : Prop :=
  ∃ data, r = Return (Some (Jsonify (obj [("success", JBool true); ("data", data)]) 201)).

(** A reading has a field [k]. *)
Definition has_field (k : string) (reading : json) : Prop :=
  ∃ o, reading = JObj o ∧ is_Some (o !! k).

(** Every stored reading has a [timestamp] field. *)
Definition all_stamped (st : state) : Prop :=
  Forall (has_field "timestamp") (sensor_data st).

(** Every stored reading that is an object has a [timestamp] field. *)
Definition objects_stamped (st : state) : Prop :=
  Forall (λ reading, ∀ o, reading = JObj o → is_Some (o !! "timestamp")) (sensor_data st).

(** ** Frames

    [R st st'] relates a store to a later one; a computation keeps [R] when
    it relates every store to the one it leaves, whatever it returns or
    raises. *)
Definition keeps (R : relation state) {A} (m : M A) : Prop := ∀ st, R st (m st).2.

(** The readings are the same. *)
Definition same_readings : relation state :=
  λ st st', sensor_data st' = sensor_data st.

(** The device identifiers are the same. *)
Definition same_devices : relation state :=
  λ st st', dom (device_status st') = dom (device_status st).

#[local] Instance rule_eq_dec : EqDecision rule.
Proof. solve_decision. Defined.

(** ** What the device records keep *)

(** Every device is still there, with at least the fields it had. *)
Definition fields_kept : relation state :=
  λ st st', ∀ device_id d,
    device_status st !! device_id = Some d →
    ∃ d', device_status st' !! device_id = Some d' ∧ dom d ⊆ dom d'.

(** Every device record has a [status]. *)
Definition all_have_status (ds : gmap string dict) : Prop :=
  map_Forall (λ _ d, is_Some (d !! "status")) ds.

(** [d['status'] == 'online'], for a record with a [status]. *)
Definition online (d : dict) : bool :=
  match d !! "status" with
  | Some s => Py.eq_str "online" s
  | None => false
  end.

(** The [sensor_type] of a posted object selects no device: there is none,
    or it is a hashable value that is no key of [device_status]. *)
Definition selects_no_device (o : dict) (ds : gmap string dict) : Prop :=
  match o !! "sensor_type" with
  | None => True
  | Some (JStr device_id) => ds !! device_id = None
  | Some (JArr _) | Some (JObj _) => False
  | Some _ => True
  end.

(** ** The reduced variant ([configs/iot/simple_app.py]) *)

Module Simple.

(** What a handler sends: [send_response], [send_header] and the document
    given to [json.dumps]. *)
Record response : Type := Response {
  code : Z;
  headers : list (string * string);
  document : json
}.

Definition json_headers : list (string * string) :=
  [("Content-type", "application/json"); ("Access-Control-Allow-Origin", "*")].

(** [Handler.do_GET], for [self.path] and the time of the call. *)
Definition do_GET (path now : string) : response :=
  {| code := 200;
     headers := json_headers;
     document :=
       if String.eqb path "/health" then
         obj [("status", JStr "healthy"); ("service", JStr "ServicePi IoT");
              ("timestamp", JStr now)]
       else if String.eqb path "/api/sensors" then
         obj [("sensors",
                obj [("temperature_sensor",
                       obj [("status", JStr "online");
                            ("last_reading",
                              JFloat (S754_finite false 6333186975989760 (-48)));
                            ("unit", JStr "°C")]);
                     ("humidity_sensor",
                       obj [("status", JStr "online");
                            ("last_reading",
                              JFloat (S754_finite false 4588042120383693 (-46)));
                            ("unit", JStr "%")])]);
              ("timestamp", JStr now)]
       else if String.prefix "/api/" path then
         obj [("status", JStr "ok"); ("endpoint", JStr path); ("timestamp", JStr now)]
       else
         obj [("service", JStr "ServicePi IoT"); ("version", JStr "1.0.0");
              ("timestamp", JStr now);
              ("endpoints",
                JArr [JStr "/health"; JStr "/api/sensors";
                      JStr "/api/system/communicate"])] |}.

End Simple.

(** [v[k1][k2]...], for a document [v]. *)
Fixpoint at_path (ks : list string) (v : json) : result json :=
  match ks with
  | [] => Return v
  | k :: ks' =>
      match Py.getitem k v with
      | Return x => at_path ks' x
      | r => r
      end
  end.

(** * Properties *)

Ltac run := unfold bind, lift, gets, modify, ret, device; simpl.
Ltac crush := repeat (case_match; simplify_eq/=; try done).
Ltac views :=
  unfold root, health_check, get_sensors, sensor_data_endpoint, get_devices,
    device_endpoint, system_info, communicate_with_services.

(** ** Frames: what a computation leaves as it is *)

Section Frame.

Context (R : relation state) `{!PreOrder R}.

Lemma keeps_ret {A} (a : A) : keeps R (ret a).
Proof. intros st. reflexivity. Qed.

Lemma keeps_lift {A} (r : result A) : keeps R (lift r).
Proof. intros st. reflexivity. Qed.

Lemma keeps_gets {A} (f : state → A) : keeps R (gets f).
Proof. intros st. reflexivity. Qed.

Lemma keeps_device device_id : keeps R (device device_id).
Proof. intros st. unfold device. case_match; reflexivity. Qed.

Lemma keeps_modify f : (∀ st, R st (f st)) → keeps R (modify f).
Proof. intros Hf st. apply Hf. Qed.

Lemma keeps_bind {A B} (m : M A) (k : A → M B) :
  keeps R m → (∀ a, keeps R (k a)) → keeps R (bind m k).
Proof.
  intros Hm Hk st. unfold bind. specialize (Hm st).
  destruct (m st) as [[a|e|] st']; simpl in *; [|done..].
  etransitivity; [exact Hm|apply Hk].
Qed.

End Frame.

Ltac frame :=
  repeat first
    [ solve [apply _]
    | apply keeps_ret | apply keeps_lift | apply keeps_gets | apply keeps_device
    | apply keeps_modify; solve [done]
    | apply keeps_bind; [..|intros ?]
    | case_match ].

#[local] Instance same_readings_pre : PreOrder same_readings.
Proof. split; unfold same_readings; [done|]. intros x y z. congruence. Qed.

#[local] Instance same_devices_pre : PreOrder same_devices.
Proof. split; unfold same_devices; [done|]. intros x y z. congruence. Qed.

Lemma view_get_read_only cfg u req :
  method req = "GET" → keeps eq (view cfg u req).
Proof.
  intros Hm. destruct u; simpl; views; rewrite ?Hm; simpl; frame.
Qed.

Lemma handle_read_only cfg u req st :
  keeps eq (view cfg u req) → (handle cfg u req st).2 = st.
Proof.
  intros Hv. unfold handle. case_match; [|done].
  symmetry. revert st. apply (keeps_bind eq); [done|]. intros r st. done.
Qed.

(** Only a POST of a reading writes [sensor_data]. *)
Lemma view_same_readings cfg u req :
  ¬ (u = url_api_sensors_data ∧ method req = "POST") →
  keeps same_readings (view cfg u req).
Proof.
  intros Hu. destruct u; simpl; views; frame.
  match goal with H : String.eqb _ "POST" = true |- _ => apply String.eqb_eq in H end.
  naive_solver.
Qed.

Lemma view_same_devices cfg u req : keeps same_devices (view cfg u req).
Proof.
  intros st. unfold same_devices.
  destruct u; simpl; views; run; crush.
  all: repeat (rewrite dom_insert_lookup_L; [|by rewrite ?lookup_insert_eq; eauto]).
  all: done.
Qed.

(** ** The GET requests *)

(** C9: every GET endpoint is read-only: handling a GET on any of the URL
    rules ([/], [/health], [/api/sensors], [/api/sensors/data],
    [/api/devices], [/api/devices/<device_id>], [/api/system/info]) leaves
    [sensor_data] and [device_status] as they were. *)
Theorem get_is_read_only cfg u req st :
  method req = "GET" → (handle cfg u req st).2 = st.
Proof.
  intros Hm. by apply handle_read_only, view_get_read_only.
Qed.

Lemma get_is_read_only_witness :
  method GET = "GET"
  ∧ (handle sample_cfg url_api_devices GET initial).2 = initial.
Proof.
  split; [reflexivity|]. apply get_is_read_only. reflexivity.
Defined.

(** ** Devices *)

Lemma serve_same_devices cfg rs st :
  same_devices st (serve cfg rs st).2.
Proof.
  revert st. induction rs as [|[u req] rs IH]; intros st; [done|].
  simpl. destruct (handle cfg u req st) as [r st'] eqn:Hh.
  specialize (IH st'). destruct (serve cfg rs st') as [out st'']. simpl in *.
  etransitivity; [|exact IH].
  replace st' with (handle cfg u req st).2 by by rewrite Hh.
  unfold handle. case_match; [|done].
  apply (keeps_bind same_devices); [apply view_same_devices|].
  intros r' st0. done.
Qed.

Lemma device_not_found req st device_id :
  device_status st !! device_id = None →
  device_endpoint req device_id st =
    (Return (Jsonify (obj [("error", JStr "Device not found")]) 404), st).
Proof.
  intros Hd. unfold device_endpoint. run. by rewrite Hd.
Qed.

(** C6: no request creates a device identifier: whatever requests are
    served (POST of a reading, PUT on a device, or any other), the keys of
    [device_status] stay the same, so they never grow; and a PUT addressed
    to an unknown identifier fails with 404 and writes nothing. *)
Theorem device_ids_never_created cfg st :
  (∀ rs, Forall (λ r, r ≠ Unmodelled) (serve cfg rs st).1 →
         dom (device_status (serve cfg rs st).2) = dom (device_status st))
  ∧ (∀ req device_id,
       method req = "PUT" → device_status st !! device_id = None →
       handle cfg (url_api_device device_id) req st =
         (Return (Some (Jsonify (obj [("error", JStr "Device not found")]) 404)), st)).
Proof.
  split; [intros rs _; apply serve_same_devices|].
  intros req device_id Hm Hd. unfold handle, calls_view. rewrite Hm. simpl.
  unfold bind. by rewrite device_not_found.
Qed.

Lemma device_ids_never_created_witness :
  dom (device_status
         (serve sample_cfg
            [(url_api_sensors_data, POST (obj [("sensor_type", JStr "door_sensor")]));
             (url_api_device "door_sensor", PUT (obj [("status", JStr "online")]))]
            initial).2)
  = dom (device_status initial)
  ∧ handle sample_cfg (url_api_device "door_sensor")
      (PUT (obj [("status", JStr "online")])) initial =
      (Return (Some (Jsonify (obj [("error", JStr "Device not found")]) 404)), initial).
Proof.
  split.
  - apply (proj1 (device_ids_never_created sample_cfg initial)).
    repeat constructor; discriminate.
  - apply (proj2 (device_ids_never_created sample_cfg initial)); reflexivity.
Defined.

Lemma device_found cfg req st device_id d :
  device_status st !! device_id = Some d →
  method req = "GET" →
  handle cfg (url_api_device device_id) req st =
    (Return (Some (Jsonify (obj [("device_id", JStr device_id); ("device", JObj d);
                                 ("timestamp", JStr (utcnow req))]) 200)), st).
Proof.
  intros Hd Hm. unfold handle, calls_view. rewrite Hm. simpl.
  unfold device_endpoint. rewrite Hm. run. rewrite Hd. simpl. by rewrite Hd.
Qed.

(** C7: for an identifier that is no key of [device_status], GET and PUT
    on [/api/devices/<device_id>] both answer 404 with
    [{"error": "Device not found"}]; for a key, GET answers with that
    device's record. *)
Theorem device_lookup cfg req st device_id :
  (device_status st !! device_id = None →
   method req = "GET" ∨ method req = "PUT" →
   handle cfg (url_api_device device_id) req st =
     (Return (Some (Jsonify (obj [("error", JStr "Device not found")]) 404)), st))
  ∧ (∀ d, device_status st !! device_id = Some d →
     method req = "GET" →
     handle cfg (url_api_device device_id) req st =
       (Return (Some (Jsonify (obj [("device_id", JStr device_id); ("device", JObj d);
                                    ("timestamp", JStr (utcnow req))]) 200)), st)).
Proof.
  split.
  - intros Hd Hm. unfold handle, calls_view.
    destruct Hm as [Hm|Hm]; rewrite Hm; simpl; unfold bind;
      by rewrite device_not_found.
  - intros d Hd Hm. by apply device_found.
Qed.

Lemma device_lookup_witness :
  handle sample_cfg (url_api_device "unknown_id") GET initial =
    (Return (Some (Jsonify (obj [("error", JStr "Device not found")]) 404)), initial)
  ∧ handle sample_cfg (url_api_device "motion_sensor") GET initial =
      (Return (Some (Jsonify
         (obj [("device_id", JStr "motion_sensor");
               ("device", obj [("status", JStr "online"); ("last_reading", JBool false);
                               ("unit", JStr "boolean")]);
               ("timestamp", JStr sample_now)]) 200)), initial).
Proof.
  split.
  - apply (proj1 (device_lookup sample_cfg GET initial "unknown_id")).
    + reflexivity.
    + left. reflexivity.
  - apply (proj2 (device_lookup sample_cfg GET initial "motion_sensor")); reflexivity.
Defined.

(** ** Posting a reading *)

Lemma truthy_obj o : Py.truthy (JObj o) = true ↔ o ≠ ∅.
Proof. simpl. case_bool_decide; naive_solver. Qed.

Lemma stamp_other now o k : k ≠ "timestamp" → stamp now o !! k = o !! k.
Proof.
  intros Hk. unfold stamp. case_bool_decide; [done|]. by rewrite lookup_insert_ne.
Qed.

(** A POST that replies 201 has appended its reading, and only that. *)
Lemma post_created req st body :
  method req = "POST" →
  (sensor_data_endpoint req st).1 = Return (Jsonify body 201) →
  sensor_data (sensor_data_endpoint req st).2 = sensor_data st ++ [reading_of req].
Proof.
  intros Hm. unfold sensor_data_endpoint, reading_of, stamp. rewrite Hm. simpl.
  run. crush.
Qed.

Lemma handle_post req cfg st :
  method req = "POST" →
  handle cfg url_api_sensors_data req st =
    let (r, st') := sensor_data_endpoint req st in
    (match r with
     | Return a => Return (Some a)
     | Raise e => Raise e
     | Unmodelled => Unmodelled
     end, st').
Proof.
  intros Hm. unfold handle, calls_view. rewrite Hm. simpl. unfold bind, ret.
  destruct (sensor_data_endpoint req st) as [[] ?]; done.
Qed.

Lemma serve_posts cfg posts st :
  Forall (λ req, method req = "POST") posts →
  Forall created (serve cfg (pair url_api_sensors_data <$> posts) st).1 →
  sensor_data (serve cfg (pair url_api_sensors_data <$> posts) st).2
  = sensor_data st ++ (reading_of <$> posts).
Proof.
  intros Hposts. revert st.
  induction Hposts as [|req posts Hm _ IH]; intros st.
  { simpl. by rewrite app_nil_r. }
  rewrite !fmap_cons. cbn [serve]. rewrite handle_post by done.
  destruct (sensor_data_endpoint req st) as [r st'] eqn:Hv.
  specialize (IH st').
  destruct (serve cfg (pair url_api_sensors_data <$> posts) st') as [out st''].
  simpl in *. intros Hout. apply Forall_cons in Hout as [[data Hr] Hout].
  rewrite IH by done. destruct r as [[body status|]| |]; simplify_eq.
  pose proof (post_created req st) as Hsd. rewrite Hv in Hsd. simpl in Hsd.
  rewrite (Hsd _ Hm eq_refl). by rewrite <- app_assoc.
Qed.

(** C1: after N successful POSTs to [/api/sensors/data], starting with no
    reading, a GET returns the last min(N, 100) readings posted, in the
    order they were posted, and [count] is N. *)
Theorem readings_after_posts cfg posts get st :
  sensor_data st = [] →
  Forall (λ req, method req = "POST") posts →
  Forall created (serve cfg (pair url_api_sensors_data <$> posts) st).1 →
  method get = "GET" →
  let N := length posts in
  let st' := (serve cfg (pair url_api_sensors_data <$> posts) st).2 in
  handle cfg url_api_sensors_data get st' =
    (Return (Some (Jsonify
       (obj [("data", JArr (drop (N - 100) (reading_of <$> posts)));
             ("count", JInt (Z.of_nat N));
             ("timestamp", JStr (utcnow get))]) 200)), st')
  ∧ length (drop (N - 100) (reading_of <$> posts)) = N `min` 100.
Proof.
  intros Hst Hposts Hout Hm N st'.
  pose proof (serve_posts cfg posts st Hposts Hout) as Hsd.
  rewrite Hst in Hsd. simpl in Hsd. fold st' in Hsd.
  split.
  - unfold handle, calls_view. rewrite Hm. simpl.
    unfold sensor_data_endpoint. rewrite Hm. simpl. run.
    unfold Py.last_n, Py.len. rewrite Hsd, length_fmap. done.
  - rewrite length_drop, length_fmap. unfold N. lia.
Qed.

Lemma readings_after_posts_witness :
  handle sample_cfg url_api_sensors_data GET
    (serve sample_cfg (pair url_api_sensors_data <$> sample_posts) initial).2 =
    (Return (Some (Jsonify
       (obj [("data",
               JArr [obj [("sensor_type", JStr "temperature_sensor"); ("value", JInt 30);
                          ("timestamp", JStr sample_now)];
                     obj [("sensor_type", JStr "door_sensor");
                          ("timestamp", JStr "noon")]]);
             ("count", JInt 2);
             ("timestamp", JStr sample_now)]) 200)),
     (serve sample_cfg (pair url_api_sensors_data <$> sample_posts) initial).2).
Proof.
  refine (proj1 (readings_after_posts sample_cfg sample_posts GET initial _ _ _ _)).
  - reflexivity.
  - repeat constructor.
  - repeat constructor; eexists; reflexivity.
  - reflexivity.
Defined.

(** C4 as it is claimed fails: for a body that is not valid JSON,
    [request.get_json()] raises inside the view, so the view returns
    nothing and the answer is not [{"error": "No data provided"}]; the
    stores are as they were. *)
Lemma malformed_body_not_answered :
  handle sample_cfg url_api_sensors_data POST_malformed initial
  = (Raise (HTTPException 400), initial)
  ∧ handle sample_cfg url_api_sensors_data POST_malformed initial
    ≠ (Return (Some (Jsonify (obj [("error", JStr "No data provided")]) 400)), initial).
Proof.
  split; [reflexivity|]. intros H. vm_compute in H. discriminate H.
Qed.

(** C4, amended: a POST to [/api/sensors/data] for which
    [request.get_json()] returns no data ([None] or another false value)
    is answered 400 with [{"error": "No data provided"}]; when
    [request.get_json()] raises instead (an absent or malformed body), the
    exception leaves the view and that answer is not given.  In both cases
    neither [sensor_data] nor [device_status] is written. *)
Theorem post_without_data cfg req st :
  method req = "POST" →
  (∀ data, get_json req = Return data → Py.truthy data = false →
     handle cfg url_api_sensors_data req st =
       (Return (Some (Jsonify (obj [("error", JStr "No data provided")]) 400)), st))
  ∧ (∀ e, get_json req = Raise e →
       handle cfg url_api_sensors_data req st = (Raise e, st)).
Proof.
  intros Hm. split.
  - intros data Hj Hd. rewrite handle_post by done.
    unfold sensor_data_endpoint. rewrite Hm. simpl. run. by rewrite Hj, Hd.
  - intros e Hj. rewrite handle_post by done.
    unfold sensor_data_endpoint. rewrite Hm. simpl. run. by rewrite Hj.
Qed.

Lemma post_without_data_witness :
  handle sample_cfg url_api_sensors_data (POST JNull) initial =
    (Return (Some (Jsonify (obj [("error", JStr "No data provided")]) 400)), initial)
  ∧ handle sample_cfg url_api_sensors_data POST_malformed initial
    = (Raise (HTTPException 400), initial).
Proof.
  split.
  - apply (proj1 (post_without_data sample_cfg (POST JNull) initial eq_refl) JNull);
      reflexivity.
  - apply (proj2 (post_without_data sample_cfg POST_malformed initial eq_refl));
      reflexivity.
Defined.

(** What a POST naming a known device does: the reading is stored, the
    device's [last_reading] becomes [data.get('value')] and its [status]
    becomes ["online"]. *)
Lemma post_known_device cfg req st o device_id d :
  method req = "POST" →
  get_json req = Return (JObj o) →
  o !! "sensor_type" = Some (JStr device_id) →
  device_status st !! device_id = Some d →
  handle cfg url_api_sensors_data req st =
    (Return (Some (Jsonify (obj [("success", JBool true);
                                 ("data", JObj (stamp (utcnow req) o))]) 201)),
     {| sensor_data := sensor_data st ++ [JObj (stamp (utcnow req) o)];
        device_status :=
          <[device_id := <["status" := JStr "online"]>
                           (<["last_reading" := default JNull (o !! "value")]> d)]>
            (device_status st) |}).
Proof.
  intros Hm Hj Ht Hd. rewrite handle_post by done.
  assert (o ≠ ∅) as Ho by (intros ->; by rewrite lookup_empty in Ht).
  apply truthy_obj in Ho.
  unfold sensor_data_endpoint. rewrite Hm. simpl.
  unfold bind at 1. unfold lift at 1. rewrite Hj, Ho. simpl.
  unfold bind at 1. unfold lift at 1. simpl.
  unfold bind at 1. unfold lift at 1.
  replace (if negb (bool_decide (is_Some (o !! "timestamp")))
           then Py.setitem "timestamp" (JStr (utcnow req)) (JObj o)
           else Return (JObj o))
    with (Return (A:=json) (JObj (stamp (utcnow req) o)))
    by (unfold stamp; by case_bool_decide).
  run.
  rewrite !stamp_other by done. rewrite Ht. simpl.
  rewrite bool_decide_eq_true_2 by eauto. simpl.
  rewrite Hd. simpl. rewrite lookup_insert_eq. unfold set_device. simpl.
  by rewrite insert_insert_eq.
Qed.

(** C2: a POST whose [sensor_type] names a known device succeeds, and
    leaves that device with [last_reading] equal to the posted [value] and
    [status] equal to ["online"]; a GET of the device then shows them. *)
Theorem post_updates_device cfg req get st o device_id value :
  method req = "POST" →
  get_json req = Return (JObj o) →
  o !! "sensor_type" = Some (JStr device_id) →
  is_Some (device_status st !! device_id) →
  o !! "value" = Some value →
  method get = "GET" →
  let st' := (handle cfg url_api_sensors_data req st).2 in
  created (handle cfg url_api_sensors_data req st).1
  ∧ ∃ d, device_status st' !! device_id = Some d
       ∧ d !! "last_reading" = Some value
       ∧ d !! "status" = Some (JStr "online")
       ∧ handle cfg (url_api_device device_id) get st' =
           (Return (Some (Jsonify (obj [("device_id", JStr device_id); ("device", JObj d);
                                        ("timestamp", JStr (utcnow get))]) 200)), st').
Proof.
  intros Hm Hj Ht [d Hd] Hv Hg st'. unfold st'.
  rewrite (post_known_device cfg req st o device_id d) by done. simpl.
  split; [by eexists|]. eexists. split; [apply lookup_insert_eq|].
  split; [by rewrite lookup_insert_ne, lookup_insert_eq, Hv|].
  split; [apply lookup_insert_eq|].
  apply device_found; [|done]. apply lookup_insert_eq.
Qed.

Lemma post_updates_device_witness :
  ∃ d, device_status
         (handle sample_cfg url_api_sensors_data
            (POST (obj [("sensor_type", JStr "temperature_sensor");
                        ("value", sample_value)])) initial).2
       !! "temperature_sensor" = Some d
     ∧ d !! "last_reading" = Some sample_value
     ∧ d !! "status" = Some (JStr "online")
     ∧ handle sample_cfg (url_api_device "temperature_sensor") GET
         (handle sample_cfg url_api_sensors_data
            (POST (obj [("sensor_type", JStr "temperature_sensor");
                        ("value", sample_value)])) initial).2 =
         (Return (Some (Jsonify (obj [("device_id", JStr "temperature_sensor");
                                      ("device", JObj d);
                                      ("timestamp", JStr sample_now)]) 200)),
          (handle sample_cfg url_api_sensors_data
             (POST (obj [("sensor_type", JStr "temperature_sensor");
                         ("value", sample_value)])) initial).2).
Proof.
  refine (proj2 (post_updates_device sample_cfg
                   (POST (obj [("sensor_type", JStr "temperature_sensor");
                               ("value", sample_value)]))
                   GET initial
                   (list_to_map [("sensor_type", JStr "temperature_sensor");
                                 ("value", sample_value)])
                   "temperature_sensor" sample_value _ _ _ _ _ _)).
  - reflexivity.
  - reflexivity.
  - reflexivity.
  - eexists. reflexivity.
  - reflexivity.
  - reflexivity.
Defined.

(** C10: a POST whose [sensor_type] names a known device and that has no
    [value] field succeeds, and overwrites that device's [last_reading]
    with [None]. *)
Theorem post_without_value cfg req st o device_id :
  method req = "POST" →
  get_json req = Return (JObj o) →
  o !! "sensor_type" = Some (JStr device_id) →
  is_Some (device_status st !! device_id) →
  o !! "value" = None →
  let st' := (handle cfg url_api_sensors_data req st).2 in
  created (handle cfg url_api_sensors_data req st).1
  ∧ ∃ d, device_status st' !! device_id = Some d
       ∧ d !! "last_reading" = Some JNull.
Proof.
  intros Hm Hj Ht [d Hd] Hv st'. unfold st'.
  rewrite (post_known_device cfg req st o device_id d) by done. simpl.
  split; [by eexists|]. eexists. split; [apply lookup_insert_eq|].
  by rewrite lookup_insert_ne, lookup_insert_eq, Hv.
Qed.

Lemma post_without_value_witness :
  (device_status initial !! "humidity_sensor" ≫= (.!! "last_reading")
   = Some (JFloat (S754_finite false 4588042120383693 (-46))))
  ∧ ∃ d, device_status
           (handle sample_cfg url_api_sensors_data
              (POST (obj [("sensor_type", JStr "humidity_sensor")])) initial).2
         !! "humidity_sensor" = Some d
       ∧ d !! "last_reading" = Some JNull.
Proof.
  split; [reflexivity|].
  refine (proj2 (post_without_value sample_cfg
                   (POST (obj [("sensor_type", JStr "humidity_sensor")])) initial
                   (list_to_map [("sensor_type", JStr "humidity_sensor")])
                   "humidity_sensor" _ _ _ _ _)).
  - reflexivity.
  - reflexivity.
  - reflexivity.
  - eexists. reflexivity.
  - reflexivity.
Defined.

(** ** The peer check *)

(** C8: when the outbound request of [/api/system/communicate] raises,
    whatever the exception, the answer is 500 with an [error] field and the
    text of the exception, and the stores are not written. *)
Theorem communicate_failure cfg req st text :
  method req = "POST" →
  requests_get req = PeerRaises text →
  ∃ body,
    handle cfg url_api_system_communicate req st = (Return (Some (Jsonify body 500)), st)
    ∧ body = obj [("error", JStr "Communication failed"); ("details", JStr text);
                  ("timestamp", JStr (utcnow req))]
    ∧ Py.getitem "error" body = Return (JStr "Communication failed")
    ∧ Py.getitem "details" body = Return (JStr text).
Proof.
  intros Hm Hp. eexists. split; [|split; [reflexivity|split; reflexivity]].
  unfold handle, calls_view. rewrite Hm. simpl.
  unfold communicate_with_services. by rewrite Hp.
Qed.

Lemma communicate_failure_witness :
  handle sample_cfg url_api_system_communicate (POST JNull) initial =
    (Return (Some (Jsonify
       (obj [("error", JStr "Communication failed");
             ("details", JStr "Connection refused");
             ("timestamp", JStr sample_now)]) 500)), initial).
Proof.
  destruct (communicate_failure sample_cfg (POST JNull) initial "Connection refused")
    as (body & Hh & -> & _); [reflexivity..|exact Hh].
Defined.

(** ** Updating a device *)

(** What [update_item] does to the dictionary does not depend on the
    dictionary. *)
Lemma update_item_cases item :
  (∃ k x, ∀ d, Py.update_item d item = (<[k := x]> d, Return tt))
  ∨ (∃ r, (∀ d, Py.update_item d item = (d, r)) ∧ ∀ u, r ≠ Return u).
Proof.
  destruct item as [| | | | |[|[] [|x []]]|]; simpl; try (right; by eexists).
  left. by do 2 eexists.
Qed.

(** [update_seq] overwrites with the pairs it gets through. *)
Lemma update_seq_union d items :
  Py.update_seq d items
  = ((Py.update_seq ∅ items).1 ∪ d, (Py.update_seq ∅ items).2).
Proof.
  revert d. induction items as [|item items IH]; intros d; simpl.
  { by rewrite (left_id_L ∅ (∪)). }
  destruct (update_item_cases item) as [(k & x & Hi)|(r & Hi & Hr)].
  - rewrite !Hi. rewrite (IH (<[k := x]> d)), (IH (<[k := x]> ∅)). simpl.
    f_equal. rewrite insert_empty, (insert_union_singleton_l d).
    by rewrite (assoc_L (∪)).
  - rewrite !Hi. destruct r as [u| |]; [by destruct (Hr u)|..]; simpl;
      by rewrite (left_id_L ∅ (∪)).
Qed.





(** ** Time stamps *)

Lemma stamp_has_timestamp now o : is_Some (stamp now o !! "timestamp").
Proof.
  unfold stamp. case_bool_decide; [done|]. rewrite lookup_insert_eq. eauto.
Qed.

(** A POST appends nothing, or its reading. *)
Lemma post_appends req st :
  method req = "POST" →
  sensor_data (sensor_data_endpoint req st).2 = sensor_data st
  ∨ sensor_data (sensor_data_endpoint req st).2 = sensor_data st ++ [reading_of req].
Proof.
  intros Hm. unfold sensor_data_endpoint, reading_of, stamp. rewrite Hm. simpl.
  run. crush; auto.
Qed.

(** A POST of a non-empty object appends it, stamped. *)
Lemma post_object_appends req st o :
  method req = "POST" → get_json req = Return (JObj o) → o ≠ ∅ →
  sensor_data (sensor_data_endpoint req st).2
  = sensor_data st ++ [JObj (stamp (utcnow req) o)].
Proof.
  intros Hm Hj Ho%truthy_obj. unfold sensor_data_endpoint, stamp. rewrite Hm. simpl.
  unfold bind at 1. unfold lift at 1. rewrite Hj, Ho. simpl.
  run. crush.
Qed.

Lemma handle_sensor_data cfg u req st :
  sensor_data (handle cfg u req st).2 = sensor_data (view cfg u req st).2
  ∨ sensor_data (handle cfg u req st).2 = sensor_data st.
Proof.
  unfold handle. case_match; [left|by right].
  unfold bind, ret. by destruct (view cfg u req st) as [[] ?].
Qed.

(** C5 fails on the code: the JSON string ["timestamp"] is a body that
    [if not data] lets through and in which ['timestamp'] is found (the
    test meant for the keys of an object is a substring test on a string),
    so it is stored, with 201, as it is: a reading with no field. *)
Lemma reading_without_timestamp :
  all_stamped initial
  ∧ created (handle sample_cfg url_api_sensors_data (POST (JStr "timestamp")) initial).1
  ∧ sensor_data sample_store = [JStr "timestamp"]
  ∧ ¬ all_stamped sample_store.
Proof.
  split; [constructor|]. split; [by eexists|]. split; [done|].
  intros Hall. apply Forall_cons in Hall as [(o & Ho & _) _]. discriminate.
Qed.

(** X19: every stored reading that is an object has a [timestamp] field,
    and every request keeps it so; a POST of a non-empty object stores it
    with the server's time when the client gave no [timestamp], and as the
    client sent it otherwise. *)
Theorem objects_are_stamped cfg u req st :
  (handle cfg u req st).1 ≠ Unmodelled →
  (objects_stamped st → objects_stamped (handle cfg u req st).2)
  ∧ (∀ o, u = url_api_sensors_data → method req = "POST" →
       get_json req = Return (JObj o) → o ≠ ∅ →
       ∃ o', sensor_data (handle cfg u req st).2 = sensor_data st ++ [JObj o']
           ∧ (o !! "timestamp" = None → o' = <["timestamp" := JStr (utcnow req)]> o)
           ∧ (is_Some (o !! "timestamp") → o' = o)).
Proof.
  intros _. split.
  - intros Hinv. unfold objects_stamped in *.
    destruct (handle_sensor_data cfg u req st) as [->| ->]; [|done].
    destruct (decide (u = url_api_sensors_data ∧ method req = "POST")) as [[-> Hm]|Hu].
    + simpl. destruct (post_appends req st Hm) as [-> | ->]; [done|].
      apply Forall_app. split; [done|]. apply Forall_singleton.
      intros o Heq. unfold reading_of in Heq. repeat case_match; simplify_eq.
      apply stamp_has_timestamp.
    + by rewrite (view_same_readings cfg u req Hu st).
  - intros o -> Hm Hj Ho. exists (stamp (utcnow req) o).
    rewrite handle_post by done.
    pose proof (post_object_appends req st o Hm Hj Ho) as Hsd.
    destruct (sensor_data_endpoint req st) as [r st']. simpl in *.
    split; [done|]. unfold stamp.
    split; intros Ht; [rewrite bool_decide_eq_false_2|rewrite bool_decide_eq_true_2];
      try done.
    rewrite Ht. by intros [].
Qed.

Lemma objects_are_stamped_witness :
  objects_stamped
    (handle sample_cfg url_api_sensors_data (POST (obj [("value", JInt 7)])) sample_store).2
  ∧ ∃ o', sensor_data
            (handle sample_cfg url_api_sensors_data (POST (obj [("value", JInt 7)]))
               sample_store).2
          = sensor_data sample_store ++ [JObj o']
        ∧ o' !! "timestamp" = Some (JStr sample_now).
Proof.
  destruct (objects_are_stamped sample_cfg url_api_sensors_data
              (POST (obj [("value", JInt 7)])) sample_store) as [Hinv Hpost].
  { vm_compute. discriminate. }
  split.
  - apply Hinv. apply Forall_singleton. discriminate.
  - destruct (Hpost (list_to_map [("value", JInt 7)])) as (o' & Hsd & Hnew & _);
      [reflexivity..|discriminate|].
    exists o'. split; [exact Hsd|]. rewrite Hnew by reflexivity. reflexivity.
Defined.

(** * Further properties of the view functions *)

(** ** Posting a reading: the other paths *)

(** The handler after [if not data], for an object: what it returns and
    the store it leaves, by the [sensor_type] of the stamped body. *)
Lemma post_object_runs req st o :
  method req = "POST" → get_json req = Return (JObj o) → o ≠ ∅ →
  sensor_data_endpoint req st =
    (let data := stamp (utcnow req) o in
     let st1 := append_reading (JObj data) st in
     match data !! "sensor_type" with
     | Some (JArr _) | Some (JObj _) => (Raise TypeError, st1)
     | Some (JStr device_id) =>
         match device_status st !! device_id with
         | Some d =>
             (Return (Jsonify (obj [("success", JBool true); ("data", JObj data)]) 201),
              set_device device_id
                (<["status" := JStr "online"]>
                   (<["last_reading" := default JNull (data !! "value")]> d))
                (set_device device_id
                   (<["last_reading" := default JNull (data !! "value")]> d) st1))
         | None =>
             (Return (Jsonify (obj [("success", JBool true); ("data", JObj data)]) 201),
              st1)
         end
     | _ => (Return (Jsonify (obj [("success", JBool true); ("data", JObj data)]) 201),
             st1)
     end).
Proof.
  intros Hm Hj Ho%truthy_obj. unfold sensor_data_endpoint. rewrite Hm. simpl.
  unfold bind at 1. unfold lift at 1. rewrite Hj, Ho. simpl.
  unfold bind at 1. unfold lift at 1. simpl.
  unfold bind at 1. unfold lift at 1.
  replace (if negb (bool_decide (is_Some (o !! "timestamp")))
           then Py.setitem "timestamp" (JStr (utcnow req)) (JObj o)
           else Return (JObj o))
    with (Return (A:=json) (JObj (stamp (utcnow req) o)))
    by (unfold stamp; by case_bool_decide).
  generalize (stamp (utcnow req) o). intros data.
  run. crush.
  all: rewrite lookup_insert_eq in *; by simplify_eq.
Qed.

(** X1: a POST of an object whose [sensor_type] selects no device (it is
    absent, or names no key of [device_status]) is stored and answered 201,
    and [device_status] is left as it was. *)
Theorem post_selecting_no_device cfg req st o :
  method req = "POST" →
  get_json req = Return (JObj o) →
  o ≠ ∅ →
  selects_no_device o (device_status st) →
  handle cfg url_api_sensors_data req st =
    (Return (Some (Jsonify (obj [("success", JBool true);
                                 ("data", JObj (stamp (utcnow req) o))]) 201)),
     {| sensor_data := sensor_data st ++ [JObj (stamp (utcnow req) o)];
        device_status := device_status st |}).
Proof.
  intros Hm Hj Ho Hsel. rewrite handle_post by done.
  rewrite (post_object_runs req st o) by done. simpl.
  unfold selects_no_device in Hsel. rewrite stamp_other by done.
  destruct (o !! "sensor_type") as [[]|]; try done. by rewrite Hsel.
Qed.

Lemma post_selecting_no_device_witness :
  handle sample_cfg url_api_sensors_data
    (POST (obj [("sensor_type", JStr "door_sensor"); ("timestamp", JStr "noon")])) initial =
    (Return (Some (Jsonify
       (obj [("success", JBool true);
             ("data", obj [("sensor_type", JStr "door_sensor");
                           ("timestamp", JStr "noon")])]) 201)),
     {| sensor_data := [obj [("sensor_type", JStr "door_sensor");
                             ("timestamp", JStr "noon")]];
        device_status := device_status initial |}).
Proof.
  etransitivity.
  - apply (post_selecting_no_device sample_cfg
             (POST (obj [("sensor_type", JStr "door_sensor"); ("timestamp", JStr "noon")]))
             initial
             (list_to_map [("sensor_type", JStr "door_sensor");
                           ("timestamp", JStr "noon")])).
    + reflexivity.
    + reflexivity.
    + discriminate.
    + reflexivity.
  - vm_compute. reflexivity.
Defined.

(** X2: a POST of an object whose [sensor_type] is an array or an object
    raises [TypeError] (the value is unhashable) after the reading was
    appended: the reading stays stored, [device_status] is not written. *)
Theorem post_unhashable_sensor_type cfg req st o v :
  method req = "POST" →
  get_json req = Return (JObj o) →
  o !! "sensor_type" = Some v →
  (∃ l, v = JArr l) ∨ (∃ o', v = JObj o') →
  handle cfg url_api_sensors_data req st =
    (Raise TypeError,
     {| sensor_data := sensor_data st ++ [JObj (stamp (utcnow req) o)];
        device_status := device_status st |}).
Proof.
  intros Hm Hj Ht Hv. rewrite handle_post by done.
  assert (o ≠ ∅) as Ho by (intros ->; by rewrite lookup_empty in Ht).
  rewrite (post_object_runs req st o) by done. simpl.
  rewrite stamp_other, Ht by done. by destruct Hv as [[l ->]|[o' ->]].
Qed.

Lemma post_unhashable_sensor_type_witness :
  handle sample_cfg url_api_sensors_data
    (POST (obj [("sensor_type", JArr [JStr "motion_sensor"]); ("timestamp", JStr "noon")]))
    initial =
    (Raise TypeError,
     {| sensor_data := [obj [("sensor_type", JArr [JStr "motion_sensor"]);
                             ("timestamp", JStr "noon")]];
        device_status := device_status initial |}).
Proof.
  etransitivity.
  - apply (post_unhashable_sensor_type sample_cfg
             (POST (obj [("sensor_type", JArr [JStr "motion_sensor"]);
                         ("timestamp", JStr "noon")]))
             initial
             (list_to_map [("sensor_type", JArr [JStr "motion_sensor"]);
                           ("timestamp", JStr "noon")])
             (JArr [JStr "motion_sensor"])).
    + reflexivity.
    + reflexivity.
    + reflexivity.
    + left. eexists. reflexivity.
  - vm_compute. reflexivity.
Defined.

(** X3: a POST whose body is true data but no object, and in which
    ['timestamp'] is not found (a number, [true], a string or an array
    without it), raises [TypeError] before anything is stored. *)
Theorem post_non_object_rejected cfg req st data :
  method req = "POST" →
  get_json req = Return data →
  Py.truthy data = true →
  (∀ o, data ≠ JObj o) →
  Py.contains "timestamp" data ≠ Return true →
  handle cfg url_api_sensors_data req st = (Raise TypeError, st).
Proof.
  intros Hm Hj Hd Hobj Hts. rewrite handle_post by done.
  unfold sensor_data_endpoint. rewrite Hm. simpl. run. rewrite Hj, Hd. simpl.
  destruct data as [| | | | | |o]; simpl in *; try done.
  - by destruct (Py.substring_of "timestamp" s).
  - by destruct (existsb (Py.eq_str "timestamp") l).
  - by destruct (Hobj o).
Qed.

Lemma post_non_object_rejected_witness :
  handle sample_cfg url_api_sensors_data (POST (JArr [JInt 21; JStr "C"])) initial
  = (Raise TypeError, initial).
Proof.
  apply (post_non_object_rejected sample_cfg (POST (JArr [JInt 21; JStr "C"])) initial
           (JArr [JInt 21; JStr "C"])).
  - reflexivity.
  - reflexivity.
  - reflexivity.
  - discriminate.
  - discriminate.
Defined.

(** X4: the reply of a successful POST carries the reading that was
    stored: its [data] is the last element of [sensor_data], the body as
    stamped. *)
Theorem post_reply_is_stored cfg req st :
  method req = "POST" →
  created (handle cfg url_api_sensors_data req st).1 →
  (handle cfg url_api_sensors_data req st).1
    = Return (Some (Jsonify (obj [("success", JBool true);
                                  ("data", reading_of req)]) 201))
  ∧ last (sensor_data (handle cfg url_api_sensors_data req st).2) = Some (reading_of req).
Proof.
  intros Hm [data Hc]. rewrite handle_post in * by done.
  pose proof (post_created req st) as Hsd.
  destruct (sensor_data_endpoint req st) as [r st'] eqn:Hv. simpl in *.
  destruct r as [[body status|]| |]; simplify_eq.
  rewrite (Hsd _ Hm eq_refl), last_snoc. split; [|done].
  revert Hv. unfold sensor_data_endpoint, reading_of, stamp. rewrite Hm. simpl.
  run. crush; intros; congruence.
Qed.

Lemma post_reply_is_stored_witness :
  last (sensor_data
          (handle sample_cfg url_api_sensors_data (POST (obj [("value", JInt 7)]))
             sample_store).2)
  = Some (obj [("value", JInt 7); ("timestamp", JStr sample_now)]).
Proof.
  etransitivity.
  - refine (proj2 (post_reply_is_stored sample_cfg (POST (obj [("value", JInt 7)]))
                     sample_store _ _)).
    + reflexivity.
    + eexists. vm_compute. reflexivity.
  - vm_compute. reflexivity.
Defined.

(** X5: a POST that names a known device writes two fields of that device
    and nothing else of [device_status]: the other devices, and the other
    fields of the device, are as they were. *)
Theorem post_writes_two_fields cfg req st o device_id d :
  method req = "POST" →
  get_json req = Return (JObj o) →
  o !! "sensor_type" = Some (JStr device_id) →
  device_status st !! device_id = Some d →
  let st' := (handle cfg url_api_sensors_data req st).2 in
  (∀ other, other ≠ device_id →
     device_status st' !! other = device_status st !! other)
  ∧ ∃ d', device_status st' !! device_id = Some d'
        ∧ ∀ k, k ≠ "last_reading" → k ≠ "status" → d' !! k = d !! k.
Proof.
  intros Hm Hj Ht Hd st'. unfold st'.
  rewrite (post_known_device cfg req st o device_id d) by done. simpl. split.
  - intros other Hne. by rewrite lookup_insert_ne.
  - eexists. split; [apply lookup_insert_eq|].
    intros k Hk1 Hk2. by rewrite !lookup_insert_ne.
Qed.

Lemma post_writes_two_fields_witness :
  device_status
    (handle sample_cfg url_api_sensors_data
       (POST (obj [("sensor_type", JStr "temperature_sensor"); ("value", JInt 30)]))
       initial).2 !! "motion_sensor"
  = device_status initial !! "motion_sensor".
Proof.
  refine (proj1 (post_writes_two_fields sample_cfg
                   (POST (obj [("sensor_type", JStr "temperature_sensor");
                               ("value", JInt 30)]))
                   initial
                   (list_to_map [("sensor_type", JStr "temperature_sensor");
                                 ("value", JInt 30)])
                   "temperature_sensor" _ _ _ _ _) "motion_sensor" _).
  - reflexivity.
  - reflexivity.
  - reflexivity.
  - reflexivity.
  - discriminate.
Defined.

(** ** Updating a device: the replies *)

Lemma handle_put cfg req st device_id d :
  method req = "PUT" →
  device_status st !! device_id = Some d →
  handle cfg (url_api_device device_id) req st =
    match get_json req with
    | Return data =>
        if Py.truthy data then
          (match (Py.update d data).2 with
           | Return _ =>
               Return (Some (Jsonify (obj [("success", JBool true);
                                           ("device_id", JStr device_id);
                                           ("device", JObj (Py.update d data).1)]) 200))
           | Raise e => Raise e
           | Unmodelled => Unmodelled
           end, set_device device_id (Py.update d data).1 st)
        else (Return (Some (Jsonify (obj [("error", JStr "No data provided")]) 400)), st)
    | Raise e => (Raise e, st)
    | Unmodelled => (Unmodelled, st)
    end.
Proof.
  intros Hm Hd. unfold handle, calls_view. rewrite Hm. simpl.
  unfold device_endpoint. rewrite Hm. simpl. run. rewrite Hd. simpl.
  destruct (get_json req) as [data| |]; simpl; [|done..].
  destruct (Py.truthy data); simpl; [|done].
  rewrite Hd. simpl. destruct (Py.update d data).2; simpl; [|done..].
  by rewrite lookup_insert_eq.
Qed.

Lemma set_device_same st device_id d :
  device_status st !! device_id = Some d → set_device device_id d st = st.
Proof.
  intros Hd. destruct st as [sd ds]. unfold set_device. simpl in *.
  by rewrite insert_id.
Qed.

(** X6: a PUT on a known device whose body is no data ([None], [{}],
    [[]], [0], [""], [false]) is answered 400 with
    [{"error": "No data provided"}] and writes nothing. *)
Theorem put_without_data cfg req st device_id data :
  method req = "PUT" →
  get_json req = Return data →
  Py.truthy data = false →
  is_Some (device_status st !! device_id) →
  handle cfg (url_api_device device_id) req st =
    (Return (Some (Jsonify (obj [("error", JStr "No data provided")]) 400)), st).
Proof.
  intros Hm Hj Ht [d Hd]. rewrite (handle_put cfg req st device_id d) by done.
  by rewrite Hj, Ht.
Qed.

Lemma put_without_data_witness :
  handle sample_cfg (url_api_device "motion_sensor") (PUT (obj [])) initial =
    (Return (Some (Jsonify (obj [("error", JStr "No data provided")]) 400)), initial).
Proof.
  apply (put_without_data sample_cfg (PUT (obj [])) initial "motion_sensor" (obj [])).
  - reflexivity.
  - reflexivity.
  - reflexivity.
  - eexists. reflexivity.
Defined.

(** X7: a PUT of a non-empty object on a known device answers 200 with
    the merged record, the body over the old record, and that is the record
    a GET of the device returns afterwards. *)
Theorem put_reply_is_stored cfg req get st device_id d o :
  method req = "PUT" →
  get_json req = Return (JObj o) →
  o ≠ ∅ →
  device_status st !! device_id = Some d →
  method get = "GET" →
  let st' := set_device device_id (o ∪ d) st in
  handle cfg (url_api_device device_id) req st =
    (Return (Some (Jsonify (obj [("success", JBool true);
                                 ("device_id", JStr device_id);
                                 ("device", JObj (o ∪ d))]) 200)), st')
  ∧ handle cfg (url_api_device device_id) get st' =
      (Return (Some (Jsonify (obj [("device_id", JStr device_id);
                                   ("device", JObj (o ∪ d));
                                   ("timestamp", JStr (utcnow get))]) 200)), st').
Proof.
  intros Hm Hj Ho%truthy_obj Hd Hg st'. split.
  - rewrite (handle_put cfg req st device_id d) by done. by rewrite Hj, Ho.
  - apply device_found; [|done]. apply lookup_insert_eq.
Qed.

Lemma put_reply_is_stored_witness :
  handle sample_cfg (url_api_device "motion_sensor")
    (PUT (obj [("last_reading", JBool true); ("battery", JInt 80)])) initial =
    (Return (Some (Jsonify
       (obj [("success", JBool true);
             ("device_id", JStr "motion_sensor");
             ("device", obj [("status", JStr "online"); ("last_reading", JBool true);
                             ("unit", JStr "boolean"); ("battery", JInt 80)])]) 200)),
     set_device "motion_sensor"
       (list_to_map [("status", JStr "online"); ("last_reading", JBool true);
                     ("unit", JStr "boolean"); ("battery", JInt 80)]) initial).
Proof.
  etransitivity.
  - refine (proj1 (put_reply_is_stored sample_cfg
                     (PUT (obj [("last_reading", JBool true); ("battery", JInt 80)]))
                     GET initial "motion_sensor" _
                     (list_to_map [("last_reading", JBool true); ("battery", JInt 80)])
                     _ _ _ _ _)).
    + reflexivity.
    + reflexivity.
    + discriminate.
    + reflexivity.
    + reflexivity.
  - vm_compute. reflexivity.
Defined.

(** X8: a PUT on a known device whose body is a number, [true] or a
    non-empty string is refused by [dict.update] ([TypeError] for what is
    not iterable, [ValueError] for a string) and the store is as it was. *)
Theorem put_scalar_rejected cfg req st device_id data :
  method req = "PUT" →
  get_json req = Return data →
  Py.truthy data = true →
  is_Some (device_status st !! device_id) →
  (∀ l, data ≠ JArr l) → (∀ o, data ≠ JObj o) →
  handle cfg (url_api_device device_id) req st =
    (Raise (match data with JStr _ => ValueError | _ => TypeError end), st).
Proof.
  intros Hm Hj Ht [d Hd] Harr Hobj.
  rewrite (handle_put cfg req st device_id d) by done. rewrite Hj, Ht.
  destruct data as [| | | |s|l|o]; simpl in *; try done;
    rewrite ?set_device_same by done; try done.
  - by destruct (String.eqb s "").
  - by destruct (Harr l).
  - by destruct (Hobj o).
Qed.

Lemma put_scalar_rejected_witness :
  handle sample_cfg (url_api_device "motion_sensor") (PUT (JStr "offline")) initial
  = (Raise ValueError, initial).
Proof.
  apply (put_scalar_rejected sample_cfg (PUT (JStr "offline")) initial "motion_sensor"
           (JStr "offline")).
  - reflexivity.
  - reflexivity.
  - reflexivity.
  - eexists. reflexivity.
  - discriminate.
  - discriminate.
Defined.

(** ** What writes the stores *)

Lemma view_writes_nothing cfg u req :
  ¬ (u = url_api_sensors_data ∧ method req = "POST") →
  (∀ device_id, u = url_api_device device_id → method req ≠ "PUT") →
  keeps eq (view cfg u req).
Proof.
  intros Hpost Hput. destruct u; simpl; views; frame.
  all: repeat match goal with
         | H : String.eqb _ _ = true |- _ => apply String.eqb_eq in H
         end.
  all: naive_solver.
Qed.

(** X9: only a POST to [/api/sensors/data] and a PUT to
    [/api/devices/<device_id>] write: every other request, whatever its
    method, body and URL rule, leaves both stores as they were. *)
Theorem only_post_and_put_write cfg u req st :
  ¬ (u = url_api_sensors_data ∧ method req = "POST") →
  (∀ device_id, u = url_api_device device_id → method req ≠ "PUT") →
  (handle cfg u req st).2 = st.
Proof.
  intros Hpost Hput. by apply handle_read_only, view_writes_nothing.
Qed.

Lemma only_post_and_put_write_witness :
  (handle sample_cfg url_api_system_communicate (POST (obj [("status", JStr "x")]))
     initial).2 = initial.
Proof.
  apply only_post_and_put_write.
  - intros [Hu _]. discriminate Hu.
  - intros device_id Hu. discriminate Hu.
Defined.

Lemma handle_appends cfg u req st :
  sensor_data (handle cfg u req st).2 = sensor_data st
  ∨ sensor_data (handle cfg u req st).2 = sensor_data st ++ [reading_of req].
Proof.
  destruct (handle_sensor_data cfg u req st) as [->| ->]; [|by left].
  destruct (decide (u = url_api_sensors_data ∧ method req = "POST")) as [[-> Hm]|Hu].
  - by apply post_appends.
  - left. apply (view_same_readings cfg u req Hu st).
Qed.

(** X10: [sensor_data] is append-only: whatever requests are served, the
    readings stored before are still there, in the same places, and each
    request adds at most one. *)
Theorem readings_append_only cfg rs st :
  Forall (λ r, r ≠ Unmodelled) (serve cfg rs st).1 →
  sensor_data st `prefix_of` sensor_data (serve cfg rs st).2
  ∧ length (sensor_data (serve cfg rs st).2) ≤ length (sensor_data st) + length rs.
Proof.
  intros _. revert st. induction rs as [|[u req] rs IH]; intros st.
  { simpl. split; [done|lia]. }
  simpl. pose proof (handle_appends cfg u req st) as Hh.
  destruct (handle cfg u req st) as [r st']. specialize (IH st').
  destruct (serve cfg rs st') as [out st'']. simpl in *. destruct IH as [IH1 IH2].
  destruct Hh as [Hh|Hh]; rewrite Hh in *.
  - split; [done|lia].
  - split; [by etransitivity; [apply prefix_app_r|]|].
    rewrite length_app in IH2. simpl in IH2. lia.
Qed.

Lemma readings_append_only_witness :
  sensor_data sample_store
    `prefix_of` sensor_data
      (serve sample_cfg
         [(url_api_sensors_data, POST (JInt 5));
          (url_api_device "motion_sensor", PUT (obj [("status", JStr "offline")]));
          (url_api_sensors_data, POST (obj [("value", JInt 7)]))] sample_store).2.
Proof.
  refine (proj1 (readings_append_only sample_cfg _ sample_store _)).
  vm_compute. repeat constructor; discriminate.
Defined.

(** ** The fields of the device records *)

#[local] Instance fields_kept_pre : PreOrder fields_kept.
Proof.
  split.
  - intros st device_id d Hd. by exists d.
  - intros st1 st2 st3 H12 H23 device_id d Hd.
    destruct (H12 _ _ Hd) as (d2 & Hd2 & Hsub2).
    destruct (H23 _ _ Hd2) as (d3 & Hd3 & Hsub3).
    exists d3. split; [done|]. by etransitivity.
Qed.

Lemma update_dom d v : dom d ⊆ dom (Py.update d v).1.
Proof.
  destruct v; simpl; try done.
  - rewrite update_seq_union. simpl. rewrite dom_union_L. set_solver.
  - rewrite dom_union_L. set_solver.
Qed.

Lemma fields_kept_append st x : fields_kept st (append_reading x st).
Proof. intros device_id d Hd. by exists d. Qed.

Lemma fields_kept_set_device st device_id d d' :
  device_status st !! device_id = Some d →
  dom d ⊆ dom d' →
  fields_kept st (set_device device_id d' st).
Proof.
  intros Hd Hsub other d0 Hd0. simpl.
  destruct (decide (other = device_id)) as [->|Hne].
  - rewrite lookup_insert_eq. exists d'. split; [done|]. by simplify_eq.
  - rewrite lookup_insert_ne by done. by exists d0.
Qed.

Ltac kept :=
  repeat match goal with
    | |- fields_kept ?st ?st => reflexivity
    | |- fields_kept ?st (append_reading _ ?st) => apply fields_kept_append
    | |- fields_kept ?st (set_device ?i ?d' ?st1) =>
        transitivity st1;
        [|eapply fields_kept_set_device;
          [simpl; rewrite ?lookup_insert_eq; first [eassumption|reflexivity]
          |first [apply update_dom|apply dom_insert_subseteq]]]
    end.

Lemma view_fields_kept cfg u req : keeps fields_kept (view cfg u req).
Proof.
  intros st. destruct u; simpl; views; run; crush.
  all: repeat match goal with
         | H : <[?i:=?x]> ?m !! ?i = Some ?y |- _ =>
             assert (y = x) as -> by (rewrite lookup_insert_eq in H; congruence);
             clear H
         end.
  all: kept.
Qed.

Lemma serve_fields_kept cfg rs st : fields_kept st (serve cfg rs st).2.
Proof.
  revert st. induction rs as [|[u req] rs IH]; intros st; [done|].
  simpl. destruct (handle cfg u req st) as [r st'] eqn:Hh.
  specialize (IH st'). destruct (serve cfg rs st') as [out st'']. simpl in *.
  etransitivity; [|exact IH].
  replace st' with (handle cfg u req st).2 by by rewrite Hh.
  unfold handle. case_match; [|done].
  apply (keeps_bind fields_kept); [apply view_fields_kept|].
  intros r' st0. done.
Qed.

(** X11: no request removes a field of a device record: whatever requests
    are served, every device is still there and its record has at least
    the fields it had (a PUT and a POST add or overwrite fields only). *)
Theorem device_fields_never_removed cfg rs st device_id d k :
  Forall (λ r, r ≠ Unmodelled) (serve cfg rs st).1 →
  device_status st !! device_id = Some d →
  is_Some (d !! k) →
  ∃ d', device_status (serve cfg rs st).2 !! device_id = Some d' ∧ is_Some (d' !! k).
Proof.
  intros _ Hd Hk. destruct (serve_fields_kept cfg rs st _ _ Hd) as (d' & Hd' & Hsub).
  exists d'. split; [done|]. apply elem_of_dom. apply Hsub. by apply elem_of_dom.
Qed.

Lemma device_fields_never_removed_witness :
  ∃ d', device_status
          (serve sample_cfg
             [(url_api_device "humidity_sensor", PUT (obj [("unit", JNull)]));
              (url_api_sensors_data, POST (obj [("sensor_type", JStr "humidity_sensor")]))]
             initial).2 !! "humidity_sensor" = Some d'
      ∧ is_Some (d' !! "unit").
Proof.
  eapply (device_fields_never_removed sample_cfg _ initial "humidity_sensor" _ "unit").
  - vm_compute. repeat constructor; discriminate.
  - reflexivity.
  - eexists. reflexivity.
Defined.

(** ** Counting the devices *)

Lemma online_fold (l : list dict) :
  (Forall (λ d, is_Some (d !! "status")) l →
   foldr
     (fun d acc =>
        match acc, d !! "status" with
        | Return n, Some s => Return (if Py.eq_str "online" s then n + 1 else n)%Z
        | Return _, None => Raise KeyError
        | r, _ => r
        end)
     (Return 0%Z) l
   = Return (Z.of_nat (length (filter (λ d, online d = true) l))))
  ∧ (¬ Forall (λ d, is_Some (d !! "status")) l →
     foldr
       (fun d acc =>
          match acc, d !! "status" with
          | Return n, Some s => Return (if Py.eq_str "online" s then n + 1 else n)%Z
          | Return _, None => Raise KeyError
          | r, _ => r
          end)
       (Return 0%Z) l
     = Raise KeyError).
Proof.
  induction l as [|d l [IH1 IH2]]; simpl.
  { split; [done|]. intros []. constructor. }
  destruct (decide (Forall (λ d, is_Some (d !! "status")) l)) as [Hl|Hl].
  - rewrite (IH1 Hl). split.
    + intros [[s Hs] _]%Forall_cons.
      assert (online d = Py.eq_str "online" s) as Ho by (unfold online; by rewrite Hs).
      rewrite Hs, filter_cons. case_decide as Hd; rewrite Ho in Hd.
      * rewrite Hd. simpl. f_equal. lia.
      * by destruct (Py.eq_str "online" s).
    + intros Hn. destruct (d !! "status") eqn:Hs; [|done].
      destruct Hn. constructor; eauto.
  - rewrite (IH2 Hl). split; [|done].
    intros [_ ?]%Forall_cons. done.
Qed.

Lemma length_filter_snd {A B} (P : B → Prop) `{∀ x, Decision (P x)} (l : list (A * B)) :
  length (filter P l.*2) = length (filter (λ kv, P kv.2) l).
Proof.
  induction l as [|[a b] l IH]; [done|].
  rewrite fmap_cons, !filter_cons. simpl. case_decide; simpl; by rewrite IH.
Qed.

Lemma size_filter_list (P : string * dict → Prop) `{∀ x, Decision (P x)}
    (ds : gmap string dict) :
  size (filter P ds) = length (filter P (map_to_list ds)).
Proof.
  rewrite map_filter_alt. apply map_size_list_to_map.
  apply (sublist_NoDup _ (map_to_list ds).*1); [apply NoDup_fst_map_to_list|].
  apply fmap_sublist, sublist_filter.
Qed.

Lemma online_devices_spec ds :
  (all_have_status ds →
   online_devices ds
   = Return (Z.of_nat (size (filter (λ kv : string * dict, online kv.2 = true) ds))))
  ∧ (¬ all_have_status ds → online_devices ds = Raise KeyError).
Proof.
  assert (all_have_status ds
          ↔ Forall (λ d, is_Some (d !! "status")) (map_to_list ds).*2) as Hall.
  { unfold all_have_status. rewrite map_Forall_to_list, Forall_fmap.
    apply Forall_iff. by intros [k d]. }
  unfold online_devices. rewrite Hall.
  destruct (online_fold (map_to_list ds).*2) as [H1 H2]. split; [|done].
  intros Hs. rewrite (H1 Hs). do 2 f_equal.
  by rewrite size_filter_list, length_filter_snd.
Qed.

Lemma devices_reply cfg req st :
  method req = "GET" →
  all_have_status (device_status st) →
  handle cfg url_api_devices req st =
    (Return (Some (Jsonify
       (obj [("devices", devices_json (device_status st));
             ("total_devices", JInt (Z.of_nat (size (device_status st))));
             ("online_devices",
               JInt (Z.of_nat (size (filter (λ kv : string * dict, online kv.2 = true)
                                       (device_status st)))));
             ("timestamp", JStr (utcnow req))]) 200)), st).
Proof.
  intros Hm Hs. unfold handle, calls_view. rewrite Hm. simpl. unfold get_devices. run.
  by rewrite (proj1 (online_devices_spec (device_status st)) Hs).
Qed.

(** X12: in a store where every device record has a [status],
    [GET /api/devices] answers 200 with the device map, [total_devices] the
    number of devices and [online_devices] the number of records whose
    [status] is ["online"], which is at most [total_devices]; the store
    is not written. *)
Theorem devices_are_counted cfg req st :
  method req = "GET" →
  all_have_status (device_status st) →
  let ds := device_status st in
  let n := size (filter (λ kv : string * dict, online kv.2 = true) ds) in
  handle cfg url_api_devices req st =
    (Return (Some (Jsonify
       (obj [("devices", devices_json ds);
             ("total_devices", JInt (Z.of_nat (size ds)));
             ("online_devices", JInt (Z.of_nat n));
             ("timestamp", JStr (utcnow req))]) 200)), st)
  ∧ n ≤ size ds.
Proof.
  intros Hm Hs ds n. split; [by apply devices_reply|apply map_size_filter].
Qed.

Lemma devices_are_counted_witness :
  handle sample_cfg url_api_devices GET
    (set_device "motion_sensor"
       (list_to_map [("status", JStr "offline"); ("unit", JStr "boolean")]) initial)
  = (Return (Some (Jsonify
       (obj [("devices",
               devices_json
                 (device_status
                    (set_device "motion_sensor"
                       (list_to_map [("status", JStr "offline");
                                     ("unit", JStr "boolean")]) initial)));
             ("total_devices", JInt 3);
             ("online_devices", JInt 2);
             ("timestamp", JStr sample_now)]) 200)),
     set_device "motion_sensor"
       (list_to_map [("status", JStr "offline"); ("unit", JStr "boolean")]) initial).
Proof.
  etransitivity.
  - refine (proj1 (devices_are_counted sample_cfg GET _ _ _)).
    + reflexivity.
    + unfold all_have_status. apply (bool_decide_unpack _). vm_compute. exact I.
  - vm_compute. reflexivity.
Defined.

(** X13: when a device record has no [status], [GET /api/devices] and
    [GET /api/system/info] both raise [KeyError], and write nothing. *)
Theorem devices_without_status cfg req st :
  method req = "GET" →
  ¬ all_have_status (device_status st) →
  handle cfg url_api_devices req st = (Raise KeyError, st)
  ∧ handle cfg url_api_system_info req st = (Raise KeyError, st).
Proof.
  intros Hm Hs. unfold handle, calls_view. rewrite Hm. simpl.
  unfold get_devices, system_info. run.
  by rewrite (proj2 (online_devices_spec (device_status st)) Hs).
Qed.

Lemma devices_without_status_witness :
  handle sample_cfg url_api_devices GET
    {| sensor_data := []; device_status := {["lamp" := {["unit" := JStr "lm"]}]} |}
  = (Raise KeyError,
     {| sensor_data := []; device_status := {["lamp" := {["unit" := JStr "lm"]}]} |}).
Proof.
  refine (proj1 (devices_without_status sample_cfg GET _ _ _)).
  - reflexivity.
  - intros Hs. specialize (Hs "lamp" _ (lookup_singleton_eq _ _)).
    destruct Hs as [x Hx]. vm_compute in Hx. discriminate Hx.
Defined.

Lemma initial_has_status : all_have_status (device_status initial).
Proof. unfold all_have_status. apply (bool_decide_unpack _). vm_compute. exact I. Qed.

Lemma served_have_status cfg rs :
  all_have_status (device_status (serve cfg rs initial).2).
Proof.
  intros device_id d' Hd'.
  assert (device_id ∈ dom (device_status initial)) as Hin.
  { rewrite <- (serve_same_devices cfg rs initial). by apply elem_of_dom_2 in Hd'. }
  apply elem_of_dom in Hin as [d Hd].
  destruct (serve_fields_kept cfg rs initial _ _ Hd) as (d'' & Hd'' & Hsub).
  simplify_eq. apply elem_of_dom, Hsub, elem_of_dom.
  by apply (initial_has_status device_id).
Qed.

(** X14: started from the stores the module creates, and as long as no
    PUT on a device has an array for its body, the service lists its
    devices: after such requests [GET /api/devices] answers 200 with
    [total_devices] 3 and an [online_devices] of at most 3 (none of them
    removes a device or the [status] of a device). *)
Theorem devices_always_listed cfg rs req :
  method req = "GET" →
  Forall no_array_put rs →
  let st := (serve cfg rs initial).2 in
  ∃ n : nat,
    n ≤ 3
    ∧ handle cfg url_api_devices req st =
        (Return (Some (Jsonify
           (obj [("devices", devices_json (device_status st));
                 ("total_devices", JInt 3);
                 ("online_devices", JInt (Z.of_nat n));
                 ("timestamp", JStr (utcnow req))]) 200)), st).
Proof.
  intros Hm _ st.
  assert (size (device_status st) = 3) as Hsize.
  { rewrite <- size_dom. unfold st. by rewrite (serve_same_devices cfg rs initial). }
  exists (size (filter (λ kv : string * dict, online kv.2 = true) (device_status st))).
  split; [rewrite <- Hsize; apply map_size_filter|].
  rewrite (devices_reply cfg req st Hm (served_have_status cfg rs)).
  by rewrite Hsize.
Qed.

Lemma devices_always_listed_witness :
  ∃ n : nat,
    n ≤ 3
    ∧ handle sample_cfg url_api_devices GET
        (serve sample_cfg
           [(url_api_device "motion_sensor", PUT (obj [("status", JNull)]));
            (url_api_sensors_data, POST (JStr "timestamp"))] initial).2 =
        (Return (Some (Jsonify
           (obj [("devices",
                   devices_json
                     (device_status
                        (serve sample_cfg
                           [(url_api_device "motion_sensor", PUT (obj [("status", JNull)]));
                            (url_api_sensors_data, POST (JStr "timestamp"))] initial).2));
                 ("total_devices", JInt 3);
                 ("online_devices", JInt (Z.of_nat n));
                 ("timestamp", JStr (utcnow GET))]) 200)),
         (serve sample_cfg
            [(url_api_device "motion_sensor", PUT (obj [("status", JNull)]));
             (url_api_sensors_data, POST (JStr "timestamp"))] initial).2).
Proof.
  apply (devices_always_listed sample_cfg
           [(url_api_device "motion_sensor", PUT (obj [("status", JNull)]));
            (url_api_sensors_data, POST (JStr "timestamp"))] GET).
  - reflexivity.
  - repeat constructor; intros device_id l Hu Hm; simpl in *; discriminate.
Defined.

(** X15: the statistics of [GET /api/system/info] agree with the other
    endpoints: in a store where every device record has a [status], its
    [total_devices] and [online_devices] are those of [GET /api/devices],
    and its [total_sensor_readings] is the [count] of
    [GET /api/sensors/data]. *)
Theorem system_info_agrees cfg req st :
  method req = "GET" →
  all_have_status (device_status st) →
  ∃ info listing data,
    handle cfg url_api_system_info req st = (Return (Some (Jsonify info 200)), st)
    ∧ handle cfg url_api_devices req st = (Return (Some (Jsonify listing 200)), st)
    ∧ handle cfg url_api_sensors_data req st = (Return (Some (Jsonify data 200)), st)
    ∧ at_path ["statistics"; "total_devices"] info = at_path ["total_devices"] listing
    ∧ at_path ["statistics"; "online_devices"] info = at_path ["online_devices"] listing
    ∧ at_path ["statistics"; "total_sensor_readings"] info
      = Return (Py.len (sensor_data st))
    ∧ at_path ["count"] data = Return (Py.len (sensor_data st)).
Proof.
  intros Hm Hs. do 3 eexists.
  split; [|split; [by apply devices_reply|split]].
  - unfold handle, calls_view. rewrite Hm. simpl. unfold system_info. run.
    by rewrite (proj1 (online_devices_spec (device_status st)) Hs).
  - unfold handle, calls_view. rewrite Hm. simpl. unfold sensor_data_endpoint.
    rewrite Hm. reflexivity.
  - repeat split; reflexivity.
Qed.

Lemma system_info_agrees_witness :
  ∃ info,
    handle sample_cfg url_api_system_info GET sample_store
    = (Return (Some (Jsonify info 200)), sample_store)
    ∧ at_path ["statistics"; "total_sensor_readings"] info = Return (JInt 1).
Proof.
  destruct (system_info_agrees sample_cfg GET sample_store)
    as (info & listing & data & Hinfo & _ & _ & _ & _ & Hn & _).
  - reflexivity.
  - unfold all_have_status. apply (bool_decide_unpack _). vm_compute. exact I.
  - exists info. split; [exact Hinfo|exact Hn].
Defined.

(** ** The peer check, when the peer answers *)

(** X16: when the peer answers, whatever its status code,
    [POST /api/system/communicate] answers 200 and writes nothing; it
    reports the peer as ["healthy"] for the status code 200 and for no
    other. *)
Theorem communicate_answer cfg req st status_code total_seconds :
  method req = "POST" →
  requests_get req = PeerAnswers status_code total_seconds →
  ∃ body,
    handle cfg url_api_system_communicate req st = (Return (Some (Jsonify body 200)), st)
    ∧ (at_path ["service_communication"; "web_backend"; "status"] body
         = Return (JStr "healthy") ↔ status_code = 200%Z)
    ∧ at_path ["service_communication"; "web_backend"; "response_time"] body
      = Return (JFloat total_seconds).
Proof.
  intros Hm Hp. eexists. split; [|split].
  - unfold handle, calls_view. rewrite Hm. simpl.
    unfold communicate_with_services. by rewrite Hp.
  - change (Return (JStr (if (status_code =? 200)%Z then "healthy" else "unhealthy"))
            = Return (JStr "healthy") ↔ status_code = 200%Z).
    destruct (Z.eqb_spec status_code 200); split; done.
  - reflexivity.
Qed.

Lemma communicate_answer_witness :
  ∃ body,
    handle sample_cfg url_api_system_communicate
      {| method := "POST"; get_json := Return JNull; utcnow := sample_now;
         requests_get := PeerAnswers 503 (S754_zero false) |} initial
    = (Return (Some (Jsonify body 200)), initial)
    ∧ at_path ["service_communication"; "web_backend"; "status"] body
      ≠ Return (JStr "healthy").
Proof.
  destruct (communicate_answer sample_cfg
              {| method := "POST"; get_json := Return JNull; utcnow := sample_now;
                 requests_get := PeerAnswers 503 (S754_zero false) |}
              initial 503 (S754_zero false)) as (body & Hb & Hs & _).
  - reflexivity.
  - reflexivity.
  - exists body. split; [exact Hb|]. intros Hh. apply Hs in Hh. discriminate Hh.
Defined.

(** ** The reduced variant *)

(** X17: [do_GET] answers every path with 200 and a document stamped with
    the time: the health document for ["/health"] and no other path, the
    sensors for ["/api/sensors"] and no other path, the echo of the path for
    the other paths under ["/api/"], and the service document, with its
    [version], for whatever is left. *)
Theorem simple_get_documents path now :
  Simple.code (Simple.do_GET path now) = 200%Z
  ∧ Py.getitem "timestamp" (Simple.document (Simple.do_GET path now)) = Return (JStr now)
  ∧ (Py.getitem "status" (Simple.document (Simple.do_GET path now))
       = Return (JStr "healthy") ↔ path = "/health")
  ∧ (Py.contains "sensors" (Simple.document (Simple.do_GET path now)) = Return true
       ↔ path = "/api/sensors")
  ∧ (Py.getitem "endpoint" (Simple.document (Simple.do_GET path now)) = Return (JStr path)
       ↔ String.prefix "/api/" path = true ∧ path ≠ "/api/sensors")
  ∧ (Py.contains "version" (Simple.document (Simple.do_GET path now)) = Return true
       ↔ path ≠ "/health" ∧ String.prefix "/api/" path = false).
Proof.
  unfold Simple.do_GET. simpl.
  destruct (String.eqb_spec path "/health") as [->|Hh];
    [|destruct (String.eqb_spec path "/api/sensors") as [->|Hs];
      [|destruct (String.prefix "/api/" path) eqn:Hp]].
  all: repeat split; try done.
  all: try (intros [? ?]; done).
Qed.

(** X18: on ["/health"] the two variants agree: the reduced variant's
    document is the one [health_check] returns when the service name is the
    default ["ServicePi IoT"], and both answer 200. *)
Theorem health_documents_agree cfg req st :
  SERVICE_NAME cfg = "ServicePi IoT" →
  method req = "GET" →
  handle cfg url_health req st =
    (Return (Some (Jsonify (Simple.document (Simple.do_GET "/health" (utcnow req)))
                     (Simple.code (Simple.do_GET "/health" (utcnow req))))), st).
Proof.
  intros Hn Hm. unfold handle, calls_view. rewrite Hm. simpl.
  unfold health_check, timestamp. by rewrite Hn.
Qed.

Lemma health_documents_agree_witness :
  handle sample_cfg url_health GET initial =
    (Return (Some (Jsonify
       (obj [("status", JStr "healthy"); ("service", JStr "ServicePi IoT");
             ("timestamp", JStr sample_now)]) 200)), initial).
Proof.
  apply (health_documents_agree sample_cfg GET initial); reflexivity.
Defined.

